(** * Airflow Tableau provider: hook and operator

    A shallow embedding of [tableau_hook.py] and [tableau_operator.py].
    The Airflow connection store and the Tableau server client are external
    collaborators: their answers are collected in a [World] record and every
    interaction with them is recorded, in program order, in a trace of
    [Event]s.  Python exceptions are values of [Exn]; a computation either
    returns, raises, or is still blocked inside a call that has not
    returned. *)

From Stdlib Require Import ZArith Lia Sorted.
From stdpp Require Import base gmap strings list.

Local Open Scope string_scope.
Local Open Scope list_scope.

(** ** Python values used by the two modules *)

Module Py.

(** [sub in s] on [str]: [sub] occurs in [s] as a contiguous run. *)
Fixpoint str_in (sub s : string) : bool :=
  String.prefix sub s ||
  match s with
  | EmptyString => false
  | String _ s' => str_in sub s'
  end.

(** [d.get(k)] / [k in d] / [d[k]] on a dict literal kept in insertion
    order. *)
Fixpoint dict_get (d : list (string * string)) (k : string) : option string :=
  match d with
  | [] => None
  | (k', v) :: d' => if String.eqb k k' then Some v else dict_get d' k
  end.

Definition dict_keys (d : list (string * string)) : list string := d.*1.

(** [repr] of a [str] without quote characters, and of a dict of those,
    as an f-string renders it. *)
Definition repr_str (s : string) : string := "'" +:+ s +:+ "'".

Fixpoint repr_items (d : list (string * string)) : string :=
  match d with
  | [] => ""
  | [(k, v)] => repr_str k +:+ ": " +:+ repr_str v
  | (k, v) :: d' => repr_str k +:+ ": " +:+ repr_str v +:+ ", " +:+ repr_items d'
  end.

Definition repr_dict (d : list (string * string)) : string :=
  "{" +:+ repr_items d +:+ "}".

(** [a or b] where [a : str | None]: [None] and the empty string are
    falsy. *)
Definition or_str (a : option string) (b : string) : string :=
  match a with
  | Some (String c s) => String c s
  | Some EmptyString | None => b
  end.

End Py.

(** ** Exceptions, events and the effect monad *)

Inductive Exn : Type :=
| AirflowException (msg : string)
| AirflowNotFoundException (conn_id : string)
| KeyError (key : string)
| IndexError
| AttributeError (obj attr : string)
| ServerResponseError (code summary : string)
| JobFailedError (reason : string)
| JobPollingError
| OtherError (what : string).

Inductive Level : Type := INFO | ERROR.

Inductive LogArg : Type :=
| LStr (s : string)
| LExn (e : Exn).

Inductive Event : Type :=
| EGetConnection (conn_id : string)
| EServerNew (server_address : string) (use_server_version : bool)
| ESignIn (token_name personal_access_token site_id : string) (ok : bool)
| ESignOut
| EFilter (resource project_name name : string)
| ECall (resource method resource_id : string)
| EPoll (job_id : string)
| ESleep (ms : Z)
| ELog (lvl : Level) (fmt : string) (args : list LogArg).

Inductive Outcome (A : Type) : Type :=
| Return (a : A)
| Raise (e : Exn)
| Blocked.

Arguments Return {A} a.
Arguments Raise {A} e.
Arguments Blocked {A}.

Definition M (A : Type) : Type := (list Event * Outcome A)%type.

Definition ret {A} (a : A) : M A := ([], Return a).
Definition raise {A} (e : Exn) : M A := ([], Raise e).
Definition emit (ev : Event) : M unit := ([ev], Return tt).

Definition bind {A B} (m : M A) (k : A -> M B) : M B :=
  match m with
  | (t, Return a) => let '(t', r) := k a in (t ++ t', r)
  | (t, Raise e) => (t, Raise e)
  | (t, Blocked) => (t, Blocked)
  end.

Notation "x <- m ;; k" := (bind m (fun x => k))
  (at level 100, m at next level, right associativity).
Notation "m ;;; k" := (bind m (fun _ => k))
  (at level 100, right associativity).

(** [try: m except ServerResponseError as e: h e]. *)
Definition try_except_ServerResponseError {A} (m : M A) (h : Exn -> M A) : M A :=
  match m with
  | (t, Raise (ServerResponseError c s)) =>
      let '(t', r) := h (ServerResponseError c s) in (t ++ t', r)
  | other => other
  end.

(** [with mk as x: body]: [mk] builds the context manager, [enter] is its
    [__enter__], [exit] its [__exit__] (which returns [None], so an exception
    of the body is re-raised after it).  [__exit__] runs when the body
    returns or raises, and not when construction or [__enter__] raised. *)
Definition with_ {C A} (mk : M C) (enter : C -> M C) (exit : C -> M unit)
    (body : C -> M A) : M A :=
  mgr <- mk ;;
  x <- enter mgr ;;
  match body x with
  | (t, Return a) => (t, Return tt) ;;; exit mgr ;;; ret a
  | (t, Raise e) => (t, Return tt) ;;; exit mgr ;;; raise e
  | (t, Blocked) => (t, Blocked)
  end.

Definition logging_info (fmt : string) (args : list LogArg) : M unit :=
  emit (ELog INFO fmt args).
Definition logging_error (fmt : string) (args : list LogArg) : M unit :=
  emit (ELog ERROR fmt args).

(** ** The external collaborators *)

Record Connection : Type := {
  host : string;
  extra_dejson : gmap string string
}.

Record ResourceItem : Type := { item_id : string; item_name : string }.

Record JobItem : Type := { job_item_id : string }.

(** What one poll of the remote job returns. *)
Inductive PollOutcome : Type :=
| PENDING
| SUCCEEDED
| FAILED (reason : string)
| ServerError (reason : string)
| Transient.

(** Constants of the job wait that the specification leaves to its
    implementer: the first sleep, the growth factor [growth_num/growth_den],
    the cap, and the budget of consecutive transient poll failures. *)
Record WaitPolicy : Type := {
  initial_interval : Z;
  growth_num : Z;
  growth_den : Z;
  max_interval : Z;
  retry_budget : nat
}.

Definition policy_ok (p : WaitPolicy) : Prop :=
  (0 <= initial_interval p)%Z /\ (0 < growth_den p <= growth_num p)%Z.

Record World : Type := {
  (** Airflow's connection store. *)
  connections : gmap string Connection;
  (** [server.auth.sign_in_with_personal_access_token]: [None] when it
      succeeds, the exception otherwise.  Arguments: server address, token
      name, token, site id. *)
  srv_sign_in : string -> string -> string -> string -> option Exn;
  (** [server.auth.sign_out()]. *)
  srv_sign_out : option Exn;
  (** [server.<resource>.filter(project_name=.., name=..)]. *)
  srv_filter : string -> string -> string -> Exn + list ResourceItem;
  (** [getattr(server.<resource>, method)]: [None] when the endpoint has no
      such attribute, otherwise what calling it on a resource id does. *)
  srv_method : string -> string -> option (string -> Exn + JobItem);
  (** The successive answers of the server to polls of a job. *)
  srv_job_polls : string -> list PollOutcome;
  wait_policy : WaitPolicy
}.

(** ** tableau_hook.py *)

Module TableauApiHook.

(** The hook object: [self.tableau_conn_id], [self.conn], [self.site_id]
    and the address [self.server] was built for. *)
Record t : Type := {
  tableau_conn_id : string;
  conn : Connection;
  site_id : string;
  server : string
}.

Definition default_conn_name : string := "tableau_default".

Section WithWorld.
Variable w : World.

(** [BaseHook.get_connection]. *)
Definition get_connection (conn_id : string) : M Connection :=
  emit (EGetConnection conn_id) ;;;
  match connections w !! conn_id with
  | Some c => ret c
  | None => raise (AirflowNotFoundException conn_id)
  end.

(** [Server(address, use_server_version=...)]: the client object, here
    identified with the address it talks to. *)
Definition Server (address : string) (use_server_version : bool) : M string :=
  emit (EServerNew address use_server_version) ;;; ret address.

Definition __init__ (site_id : option string) (tableau_conn_id : string) : M t :=
  conn <- get_connection tableau_conn_id ;;
  let site_id := Py.or_str site_id (default "" (extra_dejson conn !! "site_id")) in
  server <- Server (host conn) true ;;
  ret {| tableau_conn_id := tableau_conn_id; conn := conn;
         site_id := site_id; server := server |}.

(** [d[key]] on [extra_dejson]. *)
Definition getitem (d : gmap string string) (key : string) : M string :=
  match d !! key with
  | Some v => ret v
  | None => raise (KeyError key)
  end.

Definition sign_in_with_personal_access_token (self : t)
    (token_name personal_access_token site : string) : M unit :=
  match srv_sign_in w (server self) token_name personal_access_token site with
  | None => emit (ESignIn token_name personal_access_token site true)
  | Some e => emit (ESignIn token_name personal_access_token site false) ;;; raise e
  end.

Definition sign_out : M unit :=
  emit ESignOut ;;;
  match srv_sign_out w with
  | None => ret tt
  | Some e => raise e
  end.

Definition get_conn (self : t) : M unit :=
  token_name <- getitem (extra_dejson (conn self)) "token_name" ;;
  personal_access_token <-
    getitem (extra_dejson (conn self)) "personal_access_token" ;;
  sign_in_with_personal_access_token self
    token_name personal_access_token (site_id self).

Definition __enter__ (self : t) : M t :=
  get_conn self ;;; ret self.

Definition __exit__ (self : t) : M unit :=
  sign_out.

(** Opening a session: [TableauApiHook(site_id, conn_id).__enter__()]. *)
Definition open (site_id : option string) (tableau_conn_id : string) : M t :=
  self <- __init__ site_id tableau_conn_id ;;
  __enter__ self.

End WithWorld.
End TableauApiHook.

(** ** The client library's [jobs.wait_for_job] *)

Definition next_interval (p : WaitPolicy) (interval : Z) : Z :=
  (interval * growth_num p / growth_den p)%Z.

(** Modelled from the spec: [tableauserverclient]'s [jobs.wait_for_job],
    which is not part of the sources.  It follows the Job Wait protocol of
    section 4.2: poll on the calling thread; on a pending job sleep for the
    current interval, capped by the maximum, and grow the interval; return on
    success; raise [JobFailedError] with the server's reason on a failed job
    or an unrecoverable server error; retry a transient poll failure until
    more than [retry_budget] of them occurred in a row, then raise
    [JobPollingError].  [polls] are the server's answers still to come; when
    they run out before a terminal one the call has not returned. *)
Fixpoint job_wait (p : WaitPolicy) (job_id : string) (polls : list PollOutcome)
    (interval : Z) (transients : nat) : M unit :=
  match polls with
  | [] => ([], Blocked)
  | answer :: rest =>
      emit (EPoll job_id) ;;;
      match answer with
      | PENDING =>
          emit (ESleep (Z.min interval (max_interval p))) ;;;
          job_wait p job_id rest (next_interval p interval) 0
      | SUCCEEDED => ret tt
      | FAILED reason => raise (JobFailedError reason)
      | ServerError reason => raise (JobFailedError reason)
      | Transient =>
          if (retry_budget p <? S transients)%nat then raise JobPollingError
          else job_wait p job_id rest interval (S transients)
      end
  end.

Definition jobs_wait_for_job (w : World) (job_id : string) : M unit :=
  job_wait (wait_policy w) job_id (srv_job_polls w job_id)
    (initial_interval (wait_policy w)) 0.

(** ** tableau_operator.py *)

(** Dictionary to specify which resources and methods are available. *)
Definition available_resources : list (string * string) :=
  [("datasources", "refresh"); ("workbooks", "refresh")].

Module TableauApiOperator.

Record t : Type := {
  resource : string;
  method : string;
  resource_name : string;
  project_name : string;
  site_id : option string;
  blocking_refresh : bool;
  tableau_conn_id : string
}.

(** The constructor with its keyword defaults. *)
Definition __init__ (resource : string) (method : option string)
    (resource_name project_name : string) (site_id : option string)
    (blocking_refresh : option bool) (tableau_conn_id : option string) : t :=
  {| resource := resource;
     method := default "refresh" method;
     resource_name := resource_name;
     project_name := project_name;
     site_id := site_id;
     blocking_refresh := default true blocking_refresh;
     tableau_conn_id := default "tableau_default" tableau_conn_id |}.

Definition newline : string := String (Ascii.ascii_of_nat 10) "".

Section WithWorld.
Variable w : World.

(** [seq[0]]. *)
Definition first_item (l : list ResourceItem) : M ResourceItem :=
  match l with
  | x :: _ => ret x
  | [] => raise IndexError
  end.

(** [resource.filter(project_name=.., name=..)] on the endpoint
    [getattr(server, resource)]. *)
Definition filter_ (resource project_name name : string) : M (list ResourceItem) :=
  emit (EFilter resource project_name name) ;;;
  match srv_filter w resource project_name name with
  | inr l => ret l
  | inl e => raise e
  end.

Definition get_resource_id (self : t) (tableau_hook : TableauApiHook.t)
    (project_name resource_name : string) : M string :=
  get_resource <- filter_ (resource self) project_name resource_name ;;
  first <- first_item get_resource ;;
  let resource_id := item_id first in
  logging_info "Here is the resource id for the %s specified: %s"
    [LStr (resource self); LStr resource_id] ;;;
  ret resource_id.

(** [getattr(resource, method)]. *)
Definition getattr_method (resource method : string) : M (string -> M JobItem) :=
  match srv_method w resource method with
  | Some f =>
      ret (fun resource_id =>
             emit (ECall resource method resource_id) ;;;
             match f resource_id with
             | inr job => ret job
             | inl e => raise e
             end)
  | None => raise (AttributeError resource method)
  end.

Definition wait_for_job (self : t) (tableau_hook : TableauApiHook.t)
    (job_id : string) : M unit :=
  try_except_ServerResponseError
    (logging_info "Waiting for job..." [] ;;;
     jobs_wait_for_job w job_id ;;;
     logging_info "Job finished succesfully" [])
    (fun e => logging_error "Job failed! %s" [LExn e] ;;; raise e).

Definition execute (self : t) : M string :=
  match Py.dict_get available_resources (resource self) with
  | None =>
      raise (AirflowException
               ("Resource not found! " +:+
                "Available Resources: " +:+ Py.repr_dict available_resources))
  | Some available_methods =>
      if negb (Py.str_in (method self) available_methods) then
        raise (AirflowException
                 ("Method not found! " +:+
                  "Available methods for " +:+ resource self +:+ ": " +:+
                  available_methods))
      else
        with_ (TableauApiHook.__init__ w (site_id self) (tableau_conn_id self))
          (TableauApiHook.__enter__ w) (TableauApiHook.__exit__ w)
          (fun tableau_hook =>
             resource_id <- get_resource_id self tableau_hook
                              (project_name self) (resource_name self) ;;
             job_id <- try_except_ServerResponseError
               (method_ <- getattr_method (resource self) (method self) ;;
                job <- method_ resource_id ;;
                logging_info (newline +:+ "The refresh of %s: %s has been triggered.")
                  [LStr (resource self); LStr resource_id] ;;;
                ret (job_item_id job))
               (fun e => logging_error "Refresh failed! %s" [LExn e] ;;; raise e) ;;
             (if String.eqb (method self) "refresh" && blocking_refresh self
              then wait_for_job self tableau_hook job_id
              else ret tt) ;;;
             ret job_id)
  end.

End WithWorld.
End TableauApiOperator.

(** ** Observations on traces *)

Definition is_open (ev : Event) : bool :=
  match ev with ESignIn _ _ _ true => true | _ => false end.

Definition is_close (ev : Event) : bool :=
  match ev with ESignOut => true | _ => false end.

Definition is_poll (ev : Event) : bool :=
  match ev with EPoll _ => true | _ => false end.

(** What reaches the Tableau server: the requests made through the client,
    and the construction of the client itself when it is told to use the
    server's version, since it then asks the server for it. *)
Definition is_request (ev : Event) : bool :=
  match ev with
  | ESignIn _ _ _ _ | ESignOut | EFilter _ _ _ | ECall _ _ _ | EPoll _ => true
  | EServerNew _ use_server_version => use_server_version
  | _ => false
  end.

(** What [jobs.wait_for_job] does: polls and sleeps. *)
Definition is_wait_event (ev : Event) : bool :=
  match ev with EPoll _ | ESleep _ => true | _ => false end.

Definition count (p : Event -> bool) (tr : list Event) : nat :=
  length (List.filter p tr).

Definition opens : list Event -> nat := count is_open.
Definition closes : list Event -> nat := count is_close.
Definition polls : list Event -> nat := count is_poll.
Definition requests : list Event -> list Event := List.filter is_request.

Fixpoint sleeps (tr : list Event) : list Z :=
  match tr with
  | [] => []
  | ESleep ms :: tr' => ms :: sleeps tr'
  | _ :: tr' => sleeps tr'
  end.

(** A poll answer after which the wait goes on, given the number of
    transient failures seen in a row so far. *)
Fixpoint keeps_waiting (p : WaitPolicy) (transients : nat)
    (answers : list PollOutcome) : bool :=
  match answers with
  | [] => true
  | PENDING :: rest => keeps_waiting p 0 rest
  | Transient :: rest =>
      negb (retry_budget p <? S transients)%nat && keeps_waiting p (S transients) rest
  | _ => false
  end.

(** The answers with which the server reports that the job did not
    succeed. *)
Definition failure_answer (reason : string) (answer : PollOutcome) : Prop :=
  answer = FAILED reason \/ answer = ServerError reason.

(** ** Sample data *)

Module Sample.

Definition policy : WaitPolicy :=
  {| initial_interval := 500; growth_num := 6; growth_den := 5;
     max_interval := 30000; retry_budget := 3 |}.

Definition conn : Connection :=
  {| host := "https://tableau.example";
     extra_dejson :=
       {[ "token_name" := "airflow"; "personal_access_token" := "s3cret" ]} |}.

Definition conn_no_token : Connection :=
  {| host := "https://tableau.example";
     extra_dejson := {[ "token_name" := "airflow" ]} |}.

Definition rejected : Exn := ServerResponseError "403004" "Forbidden".

(** A server holding [items] under every filter, whose [refresh] starts
    job [job] (or is rejected when [job] is [None]) and whose polls of any
    job answer [answers]. *)
Definition world (items : list ResourceItem) (job : option string)
    (answers : list PollOutcome) : World :=
  {| connections := {[ "tableau_default" := conn; "no_token" := conn_no_token ]};
     srv_sign_in := fun _ _ _ _ => None;
     srv_sign_out := None;
     srv_filter := fun _ _ _ => inr items;
     srv_method := fun _ m =>
       if String.eqb m "refresh"
       then Some (fun _ => match job with
                           | Some j => inr {| job_item_id := j |}
                           | None => inl rejected
                           end)
       else None;
     srv_job_polls := fun _ => answers;
     wait_policy := policy |}.

Definition q1 : ResourceItem := {| item_id := "wb-1"; item_name := "Q1" |}.
Definition q1' : ResourceItem := {| item_id := "wb-2"; item_name := "Q1" |}.

Definition refresh_q1 (blocking : bool) : TableauApiOperator.t :=
  TableauApiOperator.__init__ "workbooks" None "Q1" "Sales" None (Some blocking) None.

Definition delete_q1 : TableauApiOperator.t :=
  TableauApiOperator.__init__ "workbooks" (Some "delete") "Q1" "Sales" None None None.

Definition fresh_q1 : TableauApiOperator.t :=
  TableauApiOperator.__init__ "workbooks" (Some "fresh") "Q1" "Sales" None None None.

Definition refresh_dashboards : TableauApiOperator.t :=
  TableauApiOperator.__init__ "dashboards" None "Q1" "Sales" None None None.

End Sample.

(** ** Further observations and sample worlds *)

Definition is_filter (ev : Event) : bool :=
  match ev with EFilter _ _ _ => true | _ => false end.

Definition is_call (ev : Event) : bool :=
  match ev with ECall _ _ _ => true | _ => false end.

Definition is_sign_in (ev : Event) : bool :=
  match ev with ESignIn _ _ _ _ => true | _ => false end.

(** How far an execution has got with the server: nothing signed in yet,
    session open, directory queried, method called, and done (signed out,
    or sign-in refused). *)
Inductive Stage : Type := Fresh | Opened | Queried | Called | Closed.

Definition rank (st : Stage) : nat :=
  match st with
  | Fresh => 0 | Opened => 1 | Queried => 2 | Called => 3 | Closed => 4
  end.

(** The order in which an execution talks to the server.  The client is
    built and the sign-in is attempted only at the start; an accepted
    sign-in opens the session, a refused one ends the exchange; the one
    query needs the open session, the one method call needs the query,
    polls need the call; the sign-out comes after the query or the call and
    ends the exchange.  Any other step is refused ([None]).  Events that do
    not go to the server (connection lookup, log lines, sleeps) change
    nothing. *)
Definition stage_step (st : Stage) (ev : Event) : option Stage :=
  match ev, st with
  | EServerNew _ _, Fresh => Some Fresh
  | ESignIn _ _ _ ok, Fresh => Some (if ok then Opened else Closed)
  | EFilter _ _ _, Opened => Some Queried
  | ECall _ _ _, Queried => Some Called
  | EPoll _, Called => Some Called
  | ESignOut, (Queried | Called) => Some Closed
  | (EGetConnection _ | ESleep _ | ELog _ _ _), _ => Some st
  | _, _ => None
  end.

Fixpoint stage_run (st : Stage) (tr : list Event) : option Stage :=
  match tr with
  | [] => Some st
  | ev :: tr' =>
      match stage_step st ev with
      | Some st' => stage_run st' tr'
      | None => None
      end
  end.

(** [TableauApiOperator.wait_for_job] with the client's
    [server.jobs.wait_for_job] as a parameter. *)
Definition wait_for_job_with (jobs_wait : string -> M unit)
    (self : TableauApiOperator.t) (tableau_hook : TableauApiHook.t)
    (job_id : string) : M unit :=
  try_except_ServerResponseError
    (logging_info "Waiting for job..." [] ;;;
     jobs_wait job_id ;;;
     logging_info "Job finished succesfully" [])
    (fun e => logging_error "Job failed! %s" [LExn e] ;;; raise e).

Module Faults.

Definition connection_reset : Exn := OtherError "connection reset".

Definition conn_with_site : Connection :=
  {| host := "https://tableau.example";
     extra_dejson :=
       {[ "token_name" := "airflow"; "personal_access_token" := "s3cret";
          "site_id" := "marketing" ]} |}.

(** [w] with one more stored connection. *)
Definition with_connection (conn_id : string) (c : Connection) (w : World) : World :=
  {| connections := <[conn_id := c]> (connections w);
     srv_sign_in := srv_sign_in w; srv_sign_out := srv_sign_out w;
     srv_filter := srv_filter w; srv_method := srv_method w;
     srv_job_polls := srv_job_polls w; wait_policy := wait_policy w |}.

(** [w] with a server that refuses every sign-in with [e]. *)
Definition sign_in_raises (e : Exn) (w : World) : World :=
  {| connections := connections w;
     srv_sign_in := fun _ _ _ _ => Some e; srv_sign_out := srv_sign_out w;
     srv_filter := srv_filter w; srv_method := srv_method w;
     srv_job_polls := srv_job_polls w; wait_policy := wait_policy w |}.

(** [w] with a sign-out that raises [e]. *)
Definition sign_out_raises (e : Exn) (w : World) : World :=
  {| connections := connections w;
     srv_sign_in := srv_sign_in w; srv_sign_out := Some e;
     srv_filter := srv_filter w; srv_method := srv_method w;
     srv_job_polls := srv_job_polls w; wait_policy := wait_policy w |}.

(** [w] with a directory query that raises [e]. *)
Definition filter_raises (e : Exn) (w : World) : World :=
  {| connections := connections w;
     srv_sign_in := srv_sign_in w; srv_sign_out := srv_sign_out w;
     srv_filter := fun _ _ _ => inl e; srv_method := srv_method w;
     srv_job_polls := srv_job_polls w; wait_policy := wait_policy w |}.

(** [w] where every method exists on every endpoint and raises [e]. *)
Definition call_raises (e : Exn) (w : World) : World :=
  {| connections := connections w;
     srv_sign_in := srv_sign_in w; srv_sign_out := srv_sign_out w;
     srv_filter := srv_filter w; srv_method := fun _ _ => Some (fun _ => inl e);
     srv_job_polls := srv_job_polls w; wait_policy := wait_policy w |}.

(** [w] where no endpoint has any method. *)
Definition no_methods (w : World) : World :=
  {| connections := connections w;
     srv_sign_in := srv_sign_in w; srv_sign_out := srv_sign_out w;
     srv_filter := srv_filter w; srv_method := fun _ _ => None;
     srv_job_polls := srv_job_polls w; wait_policy := wait_policy w |}.

Definition base : World :=
  Sample.world [Sample.q1] (Some "job-9") [PENDING; SUCCEEDED].

(** A client wait that polls once and is answered with a server error. *)
Definition wait_rejected (job_id : string) : M unit :=
  ([EPoll job_id], Raise Sample.rejected).

End Faults.

(** ** Traces: counting and the events of the job wait *)

Lemma count_app (p : Event -> bool) (a b : list Event) :
  count p (a ++ b) = count p a + count p b.
Proof. unfold count. now rewrite List.filter_app, length_app. Qed.

Lemma count_nil (p : Event -> bool) : count p [] = 0.
Proof. reflexivity. Qed.

Lemma count_cons (p : Event -> bool) (ev : Event) (tr : list Event) :
  count p (ev :: tr) = (if p ev then 1 else 0) + count p tr.
Proof. unfold count. simpl. now destruct (p ev). Qed.

Lemma sleeps_app (a b : list Event) : sleeps (a ++ b) = sleeps a ++ sleeps b.
Proof.
  induction a as [| ev a IH]; [reflexivity |].
  destruct ev; simpl; now rewrite ?IH.
Qed.

Lemma job_wait_events (p : WaitPolicy) (job_id : string) (answers : list PollOutcome) :
  forall interval transients,
    Forall (fun ev => is_wait_event ev = true)
           (job_wait p job_id answers interval transients).1.
Proof.
  induction answers as [| answer rest IH]; intros interval transients; simpl.
  - constructor.
  - destruct answer; simpl.
    + specialize (IH (next_interval p interval) 0%nat).
      destruct (job_wait p job_id rest _ _) as [t r]; simpl in *.
      now repeat constructor.
    + now repeat constructor.
    + now repeat constructor.
    + now repeat constructor.
    + destruct (retry_budget p <? S transients)%nat; simpl.
      * now repeat constructor.
      * specialize (IH interval (S transients)).
        destruct (job_wait p job_id rest _ _) as [t r]; simpl in *.
        now repeat constructor.
Qed.

Lemma wait_events_count (p : Event -> bool) (tr : list Event) :
  (forall ev, is_wait_event ev = true -> p ev = false) ->
  Forall (fun ev => is_wait_event ev = true) tr ->
  count p tr = 0.
Proof.
  intros Hp Htr. induction Htr as [| ev tr Hev _ IH]; [reflexivity |].
  rewrite count_cons, IH, (Hp ev Hev). reflexivity.
Qed.

Lemma wait_events_not_in (ev : Event) (tr : list Event) :
  is_wait_event ev = false ->
  Forall (fun ev => is_wait_event ev = true) tr ->
  ~ In ev tr.
Proof.
  intros Hev Htr Hin. rewrite List.Forall_forall in Htr.
  specialize (Htr ev Hin). congruence.
Qed.

(** ** The job wait: sleeps and failure *)

Lemma next_interval_grows (p : WaitPolicy) (interval : Z) :
  policy_ok p -> (0 <= interval)%Z -> (interval <= next_interval p interval)%Z.
Proof.
  intros [_ [Hden Hnum]] Hi. unfold next_interval.
  apply Z.div_le_lower_bound; [assumption | nia].
Qed.

Lemma job_wait_sleeps (p : WaitPolicy) (job_id : string) (answers : list PollOutcome) :
  policy_ok p ->
  forall interval transients,
    (0 <= interval)%Z ->
    Forall (fun ms => (Z.min interval (max_interval p) <= ms <= max_interval p)%Z)
           (sleeps (job_wait p job_id answers interval transients).1) /\
    StronglySorted Z.le (sleeps (job_wait p job_id answers interval transients).1).
Proof.
  intros Hp. induction answers as [| answer rest IH]; intros interval transients Hi; simpl.
  - split; constructor.
  - destruct answer; simpl; try (split; constructor).
    + pose proof (next_interval_grows p interval Hp Hi) as Hgrow.
      destruct (IH (next_interval p interval) 0%nat ltac:(lia)) as [Hb Hs].
      destruct (job_wait p job_id rest _ _) as [t r]; simpl in *.
      assert (Hb' : Forall (fun ms => (Z.min interval (max_interval p) <= ms <= max_interval p)%Z)
                      (sleeps t)).
      { eapply List.Forall_impl; [| exact Hb]. simpl. intros ms Hms. lia. }
      split.
      * constructor; [lia | exact Hb'].
      * constructor; [exact Hs |].
        eapply List.Forall_impl; [| exact Hb']. simpl. intros ms Hms. lia.
    + destruct (retry_budget p <? S transients)%nat; simpl.
      * split; constructor.
      * specialize (IH interval (S transients) Hi).
        destruct (job_wait p job_id rest _ _) as [t r]; simpl in *. exact IH.
Qed.

Lemma job_wait_failure (p : WaitPolicy) (job_id reason : string)
    (before : list PollOutcome) (answer : PollOutcome) (after : list PollOutcome) :
  failure_answer reason answer ->
  forall interval transients,
    keeps_waiting p transients before = true ->
    (job_wait p job_id (before ++ answer :: after) interval transients).2 =
      Raise (JobFailedError reason) /\
    polls (job_wait p job_id (before ++ answer :: after) interval transients).1 =
      S (length before).
Proof.
  intros Hfail. induction before as [| b before IH]; intros interval transients Hk; simpl.
  - destruct Hfail as [-> | ->]; simpl; now split.
  - destruct b; simpl in Hk; try discriminate; simpl.
    + specialize (IH (next_interval p interval) 0%nat Hk).
      destruct (job_wait p job_id (before ++ answer :: after) _ _) as [t r]; simpl in *.
      destruct IH as [-> IH]. split; [reflexivity |].
      unfold polls in *. rewrite !count_cons. simpl. now rewrite IH.
    + apply andb_prop in Hk as [Hb Hk].
      destruct (retry_budget p <? S transients)%nat; [discriminate |]. simpl.
      specialize (IH interval (S transients) Hk).
      destruct (job_wait p job_id (before ++ answer :: after) _ _) as [t r]; simpl in *.
      destruct IH as [-> IH]. split; [reflexivity |].
      unfold polls in *. rewrite !count_cons. simpl. now rewrite IH.
Qed.

(** ** Case analysis on one execution

    [execute] asks the world a bounded number of questions; [exec_cases]
    splits on each answer in program order and leaves one goal per path,
    with the trace of that path written out.  The events of the job wait
    stay abstract and are known to be polls and sleeps only. *)

Import TableauApiOperator.

Arguments Py.dict_get : simpl never.
Arguments Py.str_in : simpl never.
Arguments Py.repr_dict : simpl never.

Ltac unfold_exec :=
  unfold execute, with_, get_resource_id, filter_, first_item, getattr_method,
    wait_for_job, TableauApiHook.open, TableauApiHook.__init__,
    TableauApiHook.__enter__, TableauApiHook.__exit__,
    TableauApiHook.get_conn, TableauApiHook.getitem, TableauApiHook.sign_out,
    TableauApiHook.sign_in_with_personal_access_token,
    TableauApiHook.get_connection, TableauApiHook.Server,
    logging_info, logging_error, try_except_ServerResponseError,
    bind, emit, ret, raise in *.

Ltac case_on t := destruct t eqn:?; simpl.

Ltac case_step :=
  match goal with
  | |- context [Py.dict_get available_resources ?r] =>
      case_on (Py.dict_get available_resources r)
  | |- context [Py.str_in ?m ?s] => case_on (Py.str_in m s)
  | |- context [connections ?w !! ?c] => case_on (connections w !! c)
  | |- context [extra_dejson ?c !! "token_name"] =>
      case_on (extra_dejson c !! "token_name")
  | |- context [extra_dejson ?c !! "personal_access_token"] =>
      case_on (extra_dejson c !! "personal_access_token")
  | |- context [srv_sign_in ?w ?a ?b ?c ?d] => case_on (srv_sign_in w a b c d)
  | |- context [srv_filter ?w ?a ?b ?c] => case_on (srv_filter w a b c)
  | |- context [match ?l with [] => _ | _ :: _ => _ end] =>
      is_var l; destruct l; simpl
  | |- context [srv_method ?w ?a ?b] => case_on (srv_method w a b)
  | |- context [match ?f ?x with inl _ => _ | inr _ => _ end] =>
      is_var f; case_on (f x)
  | |- context [match ?e with ServerResponseError _ _ => _ | _ => _ end] =>
      is_var e; destruct e; simpl
  | |- context [String.eqb ?m "refresh"] => case_on (String.eqb m "refresh")
  | |- context [blocking_refresh ?s] => case_on (blocking_refresh s)
  | |- context [jobs_wait_for_job ?w ?j] =>
      let H := fresh "Hwait" in
      pose proof (job_wait_events (wait_policy w) j (srv_job_polls w j)
                    (initial_interval (wait_policy w)) 0%nat) as H;
      fold (jobs_wait_for_job w j) in H;
      destruct (jobs_wait_for_job w j) as [? [[] | ? |]] eqn:?; simpl in *
  | |- context [srv_sign_out ?w] => case_on (srv_sign_out w)
  end.

Ltac exec_cases := unfold_exec; repeat case_step.

Ltac count_simpl :=
  unfold opens, closes, polls;
  repeat (rewrite count_cons || rewrite count_app);
  repeat match goal with
    | H : Forall _ ?l |- context [count ?p ?l] =>
        rewrite (wait_events_count p l) by
          (assumption || (intros []; simpl; congruence))
    end;
  rewrite ?count_nil; simpl.

(** Closes a goal whose hypothesis [H] places an event in a trace that
    does not hold it. *)
Ltac absurd_in H :=
  simpl in H; rewrite ?in_app_iff in H; simpl in H;
  repeat match type of H with
    | _ \/ _ => destruct H as [H | H]
    end;
  try discriminate H; try (now destruct H);
  try (now eapply wait_events_not_in in H; [ | reflexivity | eassumption ]).

(** ** Session lifecycle *)

(** C1.  Whenever [execute] terminates (it returns or it raises, at any
    step: validation, building the hook, sign-in, lookup, trigger or job
    polling) it has opened at most one session and has invoked the hook's
    sign-out exactly once for the session it opened, and never without
    one.  In particular every execution that got as far as the directory
    query (so: one that returns, or raises during lookup, trigger or
    polling) has signed out exactly once. *)
Theorem execute_closes_session_once (w : World) (self : TableauApiOperator.t) :
  (execute w self).2 <> Blocked ->
  opens (execute w self).1 <= 1 /\
  closes (execute w self).1 = opens (execute w self).1 /\
  (forall r p n, In (EFilter r p n) (execute w self).1 -> closes (execute w self).1 = 1).
Proof.
  exec_cases; intros Hterm; try (now destruct Hterm).
  all: split; [ count_simpl; lia | split; [ count_simpl; lia | ] ].
  all: intros r' p' n' Hin; try (absurd_in Hin; fail); count_simpl; lia.
Qed.

Lemma execute_closes_session_once_witness :
  (execute (Sample.world [Sample.q1] (Some "job-9") [PENDING; FAILED "extract failed"])
     (Sample.refresh_q1 true)).2 <> Blocked /\
  closes (execute (Sample.world [Sample.q1] (Some "job-9") [PENDING; FAILED "extract failed"])
            (Sample.refresh_q1 true)).1 = 1.
Proof.
  split.
  - vm_compute. discriminate.
  - apply (execute_closes_session_once
             (Sample.world [Sample.q1] (Some "job-9") [PENDING; FAILED "extract failed"])
             (Sample.refresh_q1 true)) with (r := "workbooks") (p := "Sales") (n := "Q1").
    + vm_compute. discriminate.
    + vm_compute. tauto.
Defined.

(** ** Resource lookup *)

(** C2.  When the directory query of an execution returns no entry,
    [execute] fails: indexing the empty result raises [IndexError] (the
    not-found failure of the lookup step), nothing is triggered, and the
    session is signed out right after the query.  The sign-out is assumed
    not to raise. *)
Theorem zero_matches_raise (w : World) (self : TableauApiOperator.t) :
  In (EFilter (resource self) (project_name self) (resource_name self))
     (execute w self).1 ->
  srv_filter w (resource self) (project_name self) (resource_name self) = inr [] ->
  srv_sign_out w = None ->
  exists pre,
    execute w self =
      (pre ++ [EFilter (resource self) (project_name self) (resource_name self);
               ESignOut],
       Raise IndexError).
Proof.
  exec_cases; intros Hin Hf Hout; try discriminate; try (absurd_in Hin; fail).
  now eexists [_; _; _].
Qed.

Lemma zero_matches_raise_witness :
  exists pre,
    execute (Sample.world [] (Some "job-9") []) (Sample.refresh_q1 true) =
      (pre ++ [EFilter "workbooks" "Sales" "Q1"; ESignOut], Raise IndexError).
Proof.
  apply (zero_matches_raise (Sample.world [] (Some "job-9") []) (Sample.refresh_q1 true)).
  - vm_compute. tauto.
  - reflexivity.
  - reflexivity.
Defined.

(** C6.  When the directory query returns two or more entries the lookup
    does not fail: [get_resource_id] returns the id of the first entry, and
    the execution goes on with it: that id is logged, it is the id the
    method is called on whenever the endpoint has the method, and no other
    id is ever used. *)
Theorem duplicate_matches_first_wins (w : World) (self : TableauApiOperator.t)
    (first second : ResourceItem) (others : list ResourceItem) :
  In (EFilter (resource self) (project_name self) (resource_name self))
     (execute w self).1 ->
  srv_filter w (resource self) (project_name self) (resource_name self) =
    inr (first :: second :: others) ->
  (forall hook,
     get_resource_id w self hook (project_name self) (resource_name self) =
       ([EFilter (resource self) (project_name self) (resource_name self);
         ELog INFO "Here is the resource id for the %s specified: %s"
           [LStr (resource self); LStr (item_id first)]],
        Return (item_id first))) /\
  In (ELog INFO "Here is the resource id for the %s specified: %s"
        [LStr (resource self); LStr (item_id first)])
     (execute w self).1 /\
  (forall f, srv_method w (resource self) (method self) = Some f ->
     In (ECall (resource self) (method self) (item_id first)) (execute w self).1) /\
  (forall r m rid, In (ECall r m rid) (execute w self).1 -> rid = item_id first).
Proof.
  intros Hin Hf. split.
  { intros hook. unfold get_resource_id, filter_, first_item, logging_info,
      bind, emit, ret. now rewrite Hf. }
  revert Hin Hf.
  exec_cases; intros Hin Hf; try discriminate; try (absurd_in Hin; fail).
  all: simplify_eq.
  all: split; [ simpl; tauto | split ].
  all: try (intros f' Hf'; simpl; first [ discriminate Hf' | tauto ]).
  all: intros r' m' rid' Hcall; absurd_in Hcall; now simplify_eq.
Qed.

Lemma duplicate_matches_first_wins_witness :
  In (ECall "workbooks" "refresh" "wb-1")
     (execute (Sample.world [Sample.q1; Sample.q1'] (Some "job-9") [])
        (Sample.refresh_q1 false)).1.
Proof.
  refine (proj1 (proj2 (proj2
    (duplicate_matches_first_wins
       (Sample.world [Sample.q1; Sample.q1'] (Some "job-9") [])
       (Sample.refresh_q1 false) Sample.q1 Sample.q1' [] _ _))) _ _).
  - vm_compute. tauto.
  - reflexivity.
  - reflexivity.
Defined.

(** ** Triggering the refresh *)

(** C5.  With [blocking_refresh] false, an execution whose method call
    succeeds and returns a job returns that job's id without any poll or
    sleep: after the call only its log line and the sign-out follow.  The
    sign-out is assumed not to raise. *)
Theorem nonblocking_returns_without_polling (w : World) (self : TableauApiOperator.t)
    (rid : string) (f : string -> Exn + JobItem) (job : JobItem) :
  blocking_refresh self = false ->
  In (ECall (resource self) (method self) rid) (execute w self).1 ->
  srv_method w (resource self) (method self) = Some f ->
  f rid = inr job ->
  srv_sign_out w = None ->
  (execute w self).2 = Return (job_item_id job) /\
  polls (execute w self).1 = 0 /\
  sleeps (execute w self).1 = [] /\
  exists pre,
    (execute w self).1 =
      pre ++ [ECall (resource self) (method self) rid;
              ELog INFO (newline +:+ "The refresh of %s: %s has been triggered.")
                [LStr (resource self); LStr rid];
              ESignOut].
Proof.
  exec_cases; intros Hb Hin Hm Hf Hout; try discriminate; try (absurd_in Hin; fail).
  all: absurd_in Hin; simplify_eq; try congruence.
  all: replace j with job by congruence.
  all: repeat split; try reflexivity; now eexists [_; _; _; _; _].
Qed.

Lemma nonblocking_returns_without_polling_witness :
  (execute (Sample.world [Sample.q1] (Some "job-123") []) (Sample.refresh_q1 false)).2 =
    Return "job-123" /\
  polls (execute (Sample.world [Sample.q1] (Some "job-123") [])
           (Sample.refresh_q1 false)).1 = 0.
Proof.
  pose proof (nonblocking_returns_without_polling
    (Sample.world [Sample.q1] (Some "job-123") []) (Sample.refresh_q1 false)
    "wb-1" (fun _ => inr {| job_item_id := "job-123" |}) {| job_item_id := "job-123" |}) as H.
  destruct H as (Hret & Hpolls & _).
  - reflexivity.
  - vm_compute. tauto.
  - reflexivity.
  - reflexivity.
  - reflexivity.
  - split; [exact Hret | exact Hpolls].
Defined.

(** C8.  When the server rejects the method call with a
    [ServerResponseError] (which carries the server's code and message),
    that error is logged right after the call, the session is signed out,
    and [execute] raises the same error.  The sign-out is assumed not to
    raise. *)
Theorem rejected_trigger_logged_and_reraised (w : World) (self : TableauApiOperator.t)
    (rid : string) (f : string -> Exn + JobItem) (code summary : string) :
  In (ECall (resource self) (method self) rid) (execute w self).1 ->
  srv_method w (resource self) (method self) = Some f ->
  f rid = inl (ServerResponseError code summary) ->
  srv_sign_out w = None ->
  exists pre,
    execute w self =
      (pre ++ [ECall (resource self) (method self) rid;
               ELog ERROR "Refresh failed! %s" [LExn (ServerResponseError code summary)];
               ESignOut],
       Raise (ServerResponseError code summary)).
Proof.
  exec_cases; intros Hin Hm Hf Hout; try discriminate; try (absurd_in Hin; fail).
  all: absurd_in Hin; simplify_eq; try congruence.
  all: match goal with
       | H1 : ?f ?x = inl _, H2 : ?f ?x = inl _ |- _ =>
           rewrite H1 in H2; injection H2 as <- <-
       end.
  all: now eexists [_; _; _; _; _].
Qed.

Lemma rejected_trigger_logged_and_reraised_witness :
  exists pre,
    execute (Sample.world [Sample.q1] None []) (Sample.refresh_q1 true) =
      (pre ++ [ECall "workbooks" "refresh" "wb-1";
               ELog ERROR "Refresh failed! %s" [LExn (ServerResponseError "403004" "Forbidden")];
               ESignOut],
       Raise (ServerResponseError "403004" "Forbidden")).
Proof.
  apply (rejected_trigger_logged_and_reraised
           (Sample.world [Sample.q1] None []) (Sample.refresh_q1 true)
           "wb-1" (fun _ => inl Sample.rejected)).
  - vm_compute. tauto.
  - reflexivity.
  - reflexivity.
  - reflexivity.
Defined.

(** ** Waiting for the job *)

(** Brings the statement [L] about the job wait to bear on the wait of the
    execution at hand. *)
Ltac use_wait_lemma L :=
  match goal with
  | Hw : jobs_wait_for_job ?w ?j = _, Hp : srv_job_polls ?w ?j = _ |- _ =>
      let H := fresh "Hjw" in
      pose proof L as H;
      unfold jobs_wait_for_job in Hw; rewrite Hp in Hw;
      rewrite Hw in H; simpl in H
  end.

(** C7.  In a blocking refresh whose job, after pending answers (and
    transient poll failures within the retry budget), is reported failed or
    hits an unrecoverable server error, [execute] raises [JobFailedError]
    with the server's reason, and the failing poll is the last one: the
    answers the server would have given afterwards are never asked for.
    The sign-out is assumed not to raise. *)
Theorem failed_job_raises_without_further_polls (w : World)
    (self : TableauApiOperator.t) (rid : string) (f : string -> Exn + JobItem)
    (job : JobItem) (before after : list PollOutcome) (answer : PollOutcome)
    (reason : string) :
  blocking_refresh self = true ->
  method self = "refresh" ->
  In (ECall (resource self) (method self) rid) (execute w self).1 ->
  srv_method w (resource self) (method self) = Some f ->
  f rid = inr job ->
  srv_job_polls w (job_item_id job) = before ++ answer :: after ->
  keeps_waiting (wait_policy w) 0 before = true ->
  failure_answer reason answer ->
  srv_sign_out w = None ->
  (execute w self).2 = Raise (JobFailedError reason) /\
  polls (execute w self).1 = S (length before).
Proof.
  exec_cases; intros Hb Hmeth Hin Hm Hf Hpolls Hk Hfail Hout;
    try discriminate; try (absurd_in Hin; fail).
  all: try (rewrite Hmeth in *; discriminate).
  all: absurd_in Hin; simplify_eq; try congruence.
  all: replace j with job in * by congruence.
  all: use_wait_lemma (job_wait_failure (wait_policy w) (job_item_id job) reason
         before answer after Hfail (initial_interval (wait_policy w)) 0%nat Hk).
  all: destruct Hjw as [Hres Hcount]; try discriminate Hres.
  all: split; [ congruence | ].
  all: count_simpl; unfold polls in Hcount; lia.
Qed.

Lemma failed_job_raises_without_further_polls_witness :
  (execute (Sample.world [Sample.q1] (Some "job-9") [PENDING; FAILED "extract failed"; PENDING])
     (Sample.refresh_q1 true)).2 = Raise (JobFailedError "extract failed") /\
  polls (execute (Sample.world [Sample.q1] (Some "job-9")
                    [PENDING; FAILED "extract failed"; PENDING])
           (Sample.refresh_q1 true)).1 = 2.
Proof.
  apply (failed_job_raises_without_further_polls
           (Sample.world [Sample.q1] (Some "job-9") [PENDING; FAILED "extract failed"; PENDING])
           (Sample.refresh_q1 true) "wb-1" (fun _ => inr {| job_item_id := "job-9" |})
           {| job_item_id := "job-9" |} [PENDING] [PENDING] (FAILED "extract failed")
           "extract failed").
  - reflexivity.
  - reflexivity.
  - vm_compute. tauto.
  - reflexivity.
  - reflexivity.
  - reflexivity.
  - reflexivity.
  - left. reflexivity.
  - reflexivity.
Defined.

(** C9.  In a blocking refresh whose job answers pending, pending,
    succeeded, [execute] polls exactly three times, sleeps twice in between
    with intervals that do not decrease and do not exceed the maximum
    interval, and returns the id of the triggered job.  The sign-out is
    assumed not to raise. *)
Theorem three_polls_return_job_id (w : World) (self : TableauApiOperator.t)
    (rid : string) (f : string -> Exn + JobItem) (job : JobItem) :
  policy_ok (wait_policy w) ->
  blocking_refresh self = true ->
  method self = "refresh" ->
  In (ECall (resource self) (method self) rid) (execute w self).1 ->
  srv_method w (resource self) (method self) = Some f ->
  f rid = inr job ->
  srv_job_polls w (job_item_id job) = [PENDING; PENDING; SUCCEEDED] ->
  srv_sign_out w = None ->
  (execute w self).2 = Return (job_item_id job) /\
  polls (execute w self).1 = 3 /\
  length (sleeps (execute w self).1) = 2 /\
  Sorted Z.le (sleeps (execute w self).1) /\
  Forall (fun ms => (ms <= max_interval (wait_policy w))%Z) (sleeps (execute w self).1).
Proof.
  exec_cases; intros Hp Hb Hmeth Hin Hm Hf Hpolls Hout;
    try discriminate; try (absurd_in Hin; fail).
  all: try (rewrite Hmeth in *; discriminate).
  all: absurd_in Hin; simplify_eq; try congruence.
  all: replace j with job in * by congruence.
  all: match goal with
       | Hw : jobs_wait_for_job ?w ?j = _ |- _ =>
           pose proof (job_wait_sleeps (wait_policy w) j (srv_job_polls w j) Hp
                         (initial_interval (wait_policy w)) 0%nat (proj1 Hp)) as Hsl;
           unfold jobs_wait_for_job in Hw; rewrite Hpolls in Hw, Hsl;
           rewrite Hw in Hsl; simpl in Hw; simplify_eq
       end.
  simpl in Hsl. destruct Hsl as [Hbound Hsorted]. simpl.
  repeat split; try reflexivity.
  - now apply StronglySorted_Sorted.
  - eapply List.Forall_impl; [| exact Hbound]. simpl. intros ms Hms. lia.
Qed.

Lemma three_polls_return_job_id_witness :
  (execute (Sample.world [Sample.q1] (Some "job-9") [PENDING; PENDING; SUCCEEDED])
     (Sample.refresh_q1 true)).2 = Return "job-9" /\
  polls (execute (Sample.world [Sample.q1] (Some "job-9") [PENDING; PENDING; SUCCEEDED])
           (Sample.refresh_q1 true)).1 = 3.
Proof.
  pose proof (three_polls_return_job_id
    (Sample.world [Sample.q1] (Some "job-9") [PENDING; PENDING; SUCCEEDED])
    (Sample.refresh_q1 true) "wb-1" (fun _ => inr {| job_item_id := "job-9" |})
    {| job_item_id := "job-9" |}) as H.
  destruct H as (Hret & Hpolls & _).
  - unfold policy_ok. simpl. lia.
  - reflexivity.
  - reflexivity.
  - vm_compute. tauto.
  - reflexivity.
  - reflexivity.
  - reflexivity.
  - reflexivity.
  - split; [exact Hret | exact Hpolls].
Defined.

(** ** Opening a session *)

(** C4 as stated fails on a connection without [personal_access_token]:
    opening raises the [KeyError], but the client was built before the
    credentials were read, with [use_server_version=True], and that
    reached the server. *)
Lemma open_without_credentials_contacts_server :
  TableauApiHook.open (Sample.world [] None []) None "no_token" =
    ([EGetConnection "no_token"; EServerNew "https://tableau.example" true],
     Raise (KeyError "personal_access_token")) /\
  requests (TableauApiHook.open (Sample.world [] None []) None "no_token").1 =
    [EServerNew "https://tableau.example" true].
Proof. split; reflexivity. Qed.

(** C4, amended.  When the stored connection record lacks [token_name] or
    [personal_access_token], opening a session raises the [KeyError] of the
    first missing field (the configuration failure) before any sign-in is
    attempted.  By then the hook has read the connection store and built
    the client; that construction, with [use_server_version=True], is the
    only thing that reached the server. *)
Theorem open_without_credentials_raises_before_sign_in (w : World)
    (site_id : option string) (conn_id : string) (c : Connection) :
  connections w !! conn_id = Some c ->
  extra_dejson c !! "token_name" = None \/
  extra_dejson c !! "personal_access_token" = None ->
  exists key,
    (key = "token_name" \/ key = "personal_access_token") /\
    extra_dejson c !! key = None /\
    (extra_dejson c !! "token_name" = None -> key = "token_name") /\
    TableauApiHook.open w site_id conn_id =
      ([EGetConnection conn_id; EServerNew (host c) true], Raise (KeyError key)) /\
    count is_sign_in (TableauApiHook.open w site_id conn_id).1 = 0 /\
    requests (TableauApiHook.open w site_id conn_id).1 = [EServerNew (host c) true].
Proof.
  intros Hc Hmissing. unfold_exec. rewrite Hc. simpl.
  destruct (extra_dejson c !! "token_name") eqn:Hname; simpl.
  - destruct Hmissing as [Hmissing | Hmissing]; [discriminate |].
    rewrite Hmissing. simpl. exists "personal_access_token".
    repeat split; auto. discriminate.
  - exists "token_name". repeat split; auto.
Qed.

Lemma open_without_credentials_raises_before_sign_in_witness :
  TableauApiHook.open (Sample.world [] None []) None "no_token" =
    ([EGetConnection "no_token"; EServerNew "https://tableau.example" true],
     Raise (KeyError "personal_access_token")).
Proof.
  destruct (open_without_credentials_raises_before_sign_in (Sample.world [] None [])
              None "no_token" Sample.conn_no_token)
    as (key & Hkey & Hnone & _ & Hopen & _).
  - reflexivity.
  - right. reflexivity.
  - destruct Hkey as [-> | ->]; [discriminate Hnone | exact Hopen].
Defined.

(** ** Validation of resource and method *)

Lemma prefix_app (m rest : string) : String.prefix m (m +:+ rest) = true.
Proof.
  induction m as [| a m IH]; simpl.
  - now destruct rest.
  - destruct (Ascii.ascii_dec a a); [exact IH | congruence].
Qed.

Lemma prefix_split (m s : string) :
  String.prefix m s = true -> exists rest, s = m +:+ rest.
Proof.
  revert s. induction m as [| a m IH]; intros s H.
  - now exists s.
  - destruct s as [| b s]; simpl in H; [discriminate |].
    destruct (Ascii.ascii_dec a b) as [-> |]; [| discriminate].
    destruct (IH s H) as [rest ->]. now exists rest.
Qed.

Lemma str_in_nil (m : string) : Py.str_in m "" = String.prefix m "".
Proof. unfold Py.str_in. apply orb_false_r. Qed.

Lemma str_in_cons (m : string) (a : Ascii.ascii) (s : string) :
  Py.str_in m (String a s) = String.prefix m (String a s) || Py.str_in m s.
Proof. reflexivity. Qed.

(** [Py.str_in] decides contiguous occurrence. *)
Lemma str_in_iff (m s : string) :
  Py.str_in m s = true <-> exists before after, s = before +:+ m +:+ after.
Proof.
  split.
  - induction s as [| a s IH]; intros H.
    + rewrite str_in_nil in H. apply prefix_split in H as [rest ->].
      now exists "", rest.
    + rewrite str_in_cons in H. apply orb_prop in H as [H | H].
      * apply prefix_split in H as [rest ->]. now exists "", rest.
      * destruct (IH H) as (before & after & ->).
        now exists (String a before), after.
  - intros (before & after & ->).
    induction before as [| a before IH].
    + change ("" +:+ m +:+ after) with (m +:+ after).
      destruct (m +:+ after) eqn:E.
      * rewrite str_in_nil, <- E. apply prefix_app.
      * rewrite str_in_cons, <- E, prefix_app. reflexivity.
    + change (String a before +:+ m +:+ after)
        with (String a (before +:+ m +:+ after)).
      rewrite str_in_cons, IH. apply orb_true_r.
Qed.

(** C3 as stated fails on resource [workbooks] with method [delete]: the
    method-not-found message names the resource at hand and its methods,
    and the other supported resource, [datasources], is not in it. *)
Lemma method_error_omits_supported_resources :
  execute (Sample.world [Sample.q1] (Some "job-9") []) Sample.delete_q1 =
    ([], Raise (AirflowException
                  "Method not found! Available methods for workbooks: refresh")) /\
  Py.str_in "datasources"
    "Method not found! Available methods for workbooks: refresh" = false.
Proof. split; reflexivity. Qed.

(** C3, amended.  A resource other than [datasources] and [workbooks] makes
    [execute] raise [AirflowException] with an empty trace (nothing was
    looked up, no session acquired) and a message that lists both supported
    resources.  A supported resource with a method that does not occur in
    the string [refresh] makes it raise [AirflowException], again with an
    empty trace, and a message that names the resource and its available
    methods. *)
Theorem unsupported_rejected_before_session (w : World) (self : TableauApiOperator.t) :
  (resource self <> "datasources" -> resource self <> "workbooks" ->
   exists msg,
     execute w self = ([], Raise (AirflowException msg)) /\
     Py.str_in "datasources" msg = true /\ Py.str_in "workbooks" msg = true) /\
  (resource self = "datasources" \/ resource self = "workbooks" ->
   Py.str_in (method self) "refresh" = false ->
   exists msg,
     execute w self = ([], Raise (AirflowException msg)) /\
     Py.str_in (resource self) msg = true /\ Py.str_in "refresh" msg = true).
Proof.
  split.
  - intros Hd Hw. apply String.eqb_neq in Hd, Hw.
    unfold execute, Py.dict_get, available_resources. rewrite Hd, Hw.
    eexists. split; [reflexivity |]. split; reflexivity.
  - intros Hres Hm.
    assert (Hd : Py.dict_get available_resources (resource self) = Some "refresh").
    { destruct Hres as [-> | ->]; reflexivity. }
    unfold execute. rewrite Hd, Hm. simpl negb. cbv iota.
    eexists. split; [reflexivity |].
    destruct Hres as [-> | ->]; split; reflexivity.
Qed.

Lemma unsupported_rejected_before_session_witness :
  (exists msg,
     execute (Sample.world [Sample.q1] (Some "job-9") []) Sample.refresh_dashboards =
       ([], Raise (AirflowException msg)) /\
     Py.str_in "datasources" msg = true /\ Py.str_in "workbooks" msg = true) /\
  (exists msg,
     execute (Sample.world [Sample.q1] (Some "job-9") []) Sample.delete_q1 =
       ([], Raise (AirflowException msg)) /\
     Py.str_in "workbooks" msg = true /\ Py.str_in "refresh" msg = true).
Proof.
  split.
  - apply (unsupported_rejected_before_session
             (Sample.world [Sample.q1] (Some "job-9") []) Sample.refresh_dashboards);
      discriminate.
  - apply (unsupported_rejected_before_session
             (Sample.world [Sample.q1] (Some "job-9") []) Sample.delete_q1).
    + right. reflexivity.
    + reflexivity.
Defined.

(** C10.  The value stored for every resource is the string [refresh], and
    the method is validated by containment in it: every method that is a
    contiguous part of [refresh] passes the test, so that the execution goes
    on to build the hook.  When such a method is not [refresh] itself the
    job wait is not entered, whatever [blocking_refresh] says: nothing is
    polled and the wait is not announced. *)
Theorem substring_method_validated_wait_skipped (w : World)
    (self : TableauApiOperator.t) (before after : string) :
  resource self = "datasources" \/ resource self = "workbooks" ->
  "refresh" = before +:+ method self +:+ after ->
  (forall r methods,
     Py.dict_get available_resources r = Some methods -> methods = "refresh") /\
  Py.str_in (method self) "refresh" = true /\
  (exists tr, (execute w self).1 = EGetConnection (tableau_conn_id self) :: tr) /\
  (method self <> "refresh" ->
   polls (execute w self).1 = 0 /\
   ~ In (ELog INFO "Waiting for job..." []) (execute w self).1).
Proof.
  intros Hres Hsub.
  assert (Hin : Py.str_in (method self) "refresh" = true).
  { apply str_in_iff. eauto. }
  assert (Hd : Py.dict_get available_resources (resource self) = Some "refresh").
  { destruct Hres as [-> | ->]; reflexivity. }
  split; [| split; [exact Hin |]].
  { intros r methods. unfold Py.dict_get, available_resources.
    repeat case_match; congruence. }
  clear Hres Hsub. unfold execute. rewrite Hd, Hin. simpl negb. cbv iota.
  split.
  - exec_cases; eauto.
  - intros Hne. apply String.eqb_neq in Hne. revert Hne.
    exec_cases; intros Hne; try congruence.
    all: split; [ now count_simpl | intros Hlog; absurd_in Hlog ].
Qed.

Lemma substring_method_validated_wait_skipped_witness :
  Py.str_in "fresh" "refresh" = true /\
  polls (execute (Sample.world [Sample.q1] (Some "job-9") [PENDING; SUCCEEDED])
           Sample.fresh_q1).1 = 0.
Proof.
  destruct (substring_method_validated_wait_skipped
              (Sample.world [Sample.q1] (Some "job-9") [PENDING; SUCCEEDED])
              Sample.fresh_q1 "re" "") as (_ & Hin & _ & Hskip).
  - right. reflexivity.
  - reflexivity.
  - split; [exact Hin |]. apply Hskip. discriminate.
Defined.

(** ** Further properties of the hook and the operator *)

(** Proves that an event is in a trace that shows it. *)
Ltac in_now := simpl; rewrite ?in_app_iff; simpl; repeat (first [left; reflexivity | right]).

(** X1.  For a stored connection the hook constructor only reads the
    connection store and builds the client for the connection's host.  A
    non-empty [site_id] argument is kept as the hook's site; with no
    argument, or an empty one, the site is the connection's [site_id] extra,
    or the empty string when the connection has none. *)
Theorem hook_site_id_resolution (w : World) (site : option string)
    (conn_id : string) (c : Connection) :
  connections w !! conn_id = Some c ->
  exists hook,
    TableauApiHook.__init__ w site conn_id =
      ([EGetConnection conn_id; EServerNew (host c) true], Return hook) /\
    TableauApiHook.conn hook = c /\
    TableauApiHook.server hook = host c /\
    (forall s, site = Some s -> s <> "" -> TableauApiHook.site_id hook = s) /\
    (site = None \/ site = Some "" ->
     TableauApiHook.site_id hook = default "" (extra_dejson c !! "site_id")).
Proof.
  intros Hc. unfold_exec. rewrite Hc. simpl. eexists. split; [reflexivity |].
  simpl. repeat split.
  - intros s -> Hs. destruct s; [congruence | reflexivity].
  - intros [-> | ->]; reflexivity.
Qed.

(** X2.  With both credential fields stored, opening a session makes
    exactly one sign-in attempt, with the stored token name and token and
    the resolved site id, after the connection lookup and the client
    construction.  When the server accepts it the hook is returned; when
    the server refuses, the server's exception is raised unchanged. *)
Theorem open_signs_in_with_stored_credentials (w : World) (site : option string)
    (conn_id : string) (c : Connection) (token_name token : string) :
  connections w !! conn_id = Some c ->
  extra_dejson c !! "token_name" = Some token_name ->
  extra_dejson c !! "personal_access_token" = Some token ->
  let site_id := Py.or_str site (default "" (extra_dejson c !! "site_id")) in
  (TableauApiHook.open w site conn_id).1 =
    [EGetConnection conn_id; EServerNew (host c) true;
     ESignIn token_name token site_id
       (bool_decide (srv_sign_in w (host c) token_name token site_id = None))] /\
  match srv_sign_in w (host c) token_name token site_id with
  | None => exists hook, (TableauApiHook.open w site conn_id).2 = Return hook /\
                         TableauApiHook.site_id hook = site_id
  | Some e => (TableauApiHook.open w site conn_id).2 = Raise e
  end.
Proof.
  intros Hc Hn Ht site_id. unfold_exec. rewrite Hc. simpl. rewrite Hn. simpl.
  rewrite Ht. simpl. fold site_id.
  destruct (srv_sign_in w (host c) token_name token site_id); simpl; split; eauto.
Qed.

(** X3.  When the sign-in of an execution fails, [execute] raises the
    server's exception at that point.  The failed sign-in is the last
    event; before it there are only the connection lookup and the
    construction of the client; nothing is queried and no sign-out is
    attempted for the session that never opened. *)
Theorem failed_sign_in_skips_sign_out (w : World) (self : TableauApiOperator.t)
    (token_name token site : string) :
  In (ESignIn token_name token site false) (execute w self).1 ->
  exists e c,
    connections w !! tableau_conn_id self = Some c /\
    srv_sign_in w (host c) token_name token site = Some e /\
    execute w self =
      ([EGetConnection (tableau_conn_id self); EServerNew (host c) true;
        ESignIn token_name token site false],
       Raise e) /\
    closes (execute w self).1 = 0.
Proof.
  exec_cases; intros Hin; try (absurd_in Hin; fail).
  all: absurd_in Hin; simplify_eq.
  all: eexists _, _; repeat split; eassumption || reflexivity.
Qed.

(** X4.  When the directory query itself raises, [execute] raises that
    exception after signing out, and logs nothing at all: the lookup is
    outside the [try] block, so even a [ServerResponseError] is not
    reported as a failed refresh.  The sign-out is assumed not to raise. *)
Theorem lookup_error_propagates_unlogged (w : World) (self : TableauApiOperator.t)
    (e : Exn) :
  In (EFilter (resource self) (project_name self) (resource_name self))
     (execute w self).1 ->
  srv_filter w (resource self) (project_name self) (resource_name self) = inl e ->
  srv_sign_out w = None ->
  exists pre,
    execute w self =
      (pre ++ [EFilter (resource self) (project_name self) (resource_name self);
               ESignOut],
       Raise e) /\
    forall lvl fmt args, ~ In (ELog lvl fmt args) (execute w self).1.
Proof.
  exec_cases; intros Hin Hf Hout; try discriminate; try (absurd_in Hin; fail).
  simplify_eq. eexists [_; _; _]. split; [reflexivity |].
  intros lvl fmt args Hlog. absurd_in Hlog.
Qed.

(** X5.  When the lookup succeeded but the endpoint has no attribute named
    like the method (as for a validated method other than [refresh]),
    [execute] raises [AttributeError] after signing out and calls nothing
    on the server.  The sign-out is assumed not to raise. *)
Theorem missing_method_raises_attribute_error (w : World)
    (self : TableauApiOperator.t) (rid : string) :
  In (ELog INFO "Here is the resource id for the %s specified: %s"
        [LStr (resource self); LStr rid]) (execute w self).1 ->
  srv_method w (resource self) (method self) = None ->
  srv_sign_out w = None ->
  exists pre,
    execute w self =
      (pre ++ [ELog INFO "Here is the resource id for the %s specified: %s"
                 [LStr (resource self); LStr rid];
               ESignOut],
       Raise (AttributeError (resource self) (method self))) /\
    count is_call (execute w self).1 = 0.
Proof.
  exec_cases; intros Hin Hm Hout; try discriminate; try (absurd_in Hin; fail).
  absurd_in Hin. simplify_eq. eexists [_; _; _; _]. split; reflexivity.
Qed.

(** X6.  An exception of the method call that is not a
    [ServerResponseError] leaves [execute] as it is, after the sign-out,
    and no error line is logged for it.  The sign-out is assumed not to
    raise. *)
Theorem other_trigger_error_unlogged (w : World) (self : TableauApiOperator.t)
    (rid : string) (f : string -> Exn + JobItem) (e : Exn) :
  In (ECall (resource self) (method self) rid) (execute w self).1 ->
  srv_method w (resource self) (method self) = Some f ->
  f rid = inl e ->
  (forall code summary, e <> ServerResponseError code summary) ->
  srv_sign_out w = None ->
  exists pre,
    execute w self =
      (pre ++ [ECall (resource self) (method self) rid; ESignOut], Raise e) /\
    forall fmt args, ~ In (ELog ERROR fmt args) (execute w self).1.
Proof.
  exec_cases; intros Hin Hm Hf Hne Hout; try discriminate; try (absurd_in Hin; fail).
  all: absurd_in Hin; simplify_eq; try congruence.
  all: match goal with
       | H1 : ?f ?x = inl _, H2 : ?f ?x = inl _ |- _ =>
           rewrite H1 in H2; injection H2 as <-
       end.
  all: try (now edestruct Hne).
  all: eexists [_; _; _; _; _]; split; [reflexivity |].
  all: intros fmt args Hlog; absurd_in Hlog.
Qed.

Lemma ends_one (x : Event) : exists pre, [x] = pre ++ [x].
Proof. now exists []. Qed.

Lemma ends_cons (a x : Event) (l : list Event) :
  (exists pre, l = pre ++ [x]) -> exists pre, a :: l = pre ++ [x].
Proof. intros [pre ->]. now exists (a :: pre). Qed.

Lemma ends_app (x : Event) (l1 l2 : list Event) :
  (exists pre, l2 = pre ++ [x]) -> exists pre, l1 ++ l2 = pre ++ [x].
Proof. intros [pre ->]. exists (l1 ++ pre). now rewrite app_assoc. Qed.

(** Proves that a trace ends with a given event. *)
Ltac ends_with :=
  repeat first [ apply ends_one | apply ends_cons | apply ends_app ].

(** X7.  When the sign-out raises, [execute] raises the sign-out's
    exception whatever the body did: a job id that was about to be returned,
    or the exception of the body, is lost.  The sign-out is still the last
    event. *)
Theorem sign_out_failure_replaces_outcome (w : World) (self : TableauApiOperator.t)
    (e : Exn) :
  In ESignOut (execute w self).1 ->
  srv_sign_out w = Some e ->
  (execute w self).2 = Raise e /\
  exists pre, (execute w self).1 = pre ++ [ESignOut].
Proof.
  exec_cases; intros Hin Hout; try discriminate; try (absurd_in Hin; fail).
  all: simplify_eq; split; [reflexivity | ends_with].
Qed.

(** X8.  Whenever [execute] returns a value, that value is the id of the
    job which the method call of this execution returned; one session was
    opened and closed, the sign-out did not raise and is the last event. *)
Theorem returned_job_id_comes_from_trigger (w : World) (self : TableauApiOperator.t)
    (v : string) :
  (execute w self).2 = Return v ->
  exists rid f job,
    In (ECall (resource self) (method self) rid) (execute w self).1 /\
    srv_method w (resource self) (method self) = Some f /\
    f rid = inr job /\
    v = job_item_id job /\
    opens (execute w self).1 = 1 /\
    closes (execute w self).1 = 1 /\
    exists pre, (execute w self).1 = pre ++ [ESignOut].
Proof.
  exec_cases; intros Hret; try discriminate.
  all: simplify_eq.
  all: eexists _, _, _; split; [in_now |].
  all: repeat (split; [ eassumption || reflexivity || (count_simpl; lia) |]).
  all: ends_with.
Qed.

(** *** The order of the exchange with the server *)

Lemma stage_run_app (st : Stage) (a b : list Event) :
  stage_run st (a ++ b) =
    match stage_run st a with
    | Some st' => stage_run st' b
    | None => None
    end.
Proof.
  revert st. induction a as [| ev a IH]; intros st; simpl; [reflexivity |].
  destruct (stage_step st ev); [apply IH | reflexivity].
Qed.

Lemma stage_run_wait (tr rest : list Event) :
  Forall (fun ev => is_wait_event ev = true) tr ->
  stage_run Called (tr ++ rest) = stage_run Called rest.
Proof.
  induction 1 as [| ev tr Hev _ IH]; [reflexivity |].
  destruct ev; try discriminate; simpl; exact IH.
Qed.

Lemma stage_run_wait_only (tr : list Event) :
  Forall (fun ev => is_wait_event ev = true) tr ->
  stage_run Called tr = Some Called.
Proof.
  intros H. rewrite <- (app_nil_r tr). now rewrite stage_run_wait.
Qed.

Lemma stage_step_rank (st st' : Stage) (ev : Event) :
  stage_step st ev = Some st' -> rank st <= rank st'.
Proof.
  destruct ev as [| | ? ? ? [] | | | | | |], st; simpl; intros H; simplify_eq; simpl; lia.
Qed.

Lemma stage_run_rank (tr : list Event) :
  forall st st', stage_run st tr = Some st' -> rank st <= rank st'.
Proof.
  induction tr as [| ev tr IH]; intros st st' H; simpl in H.
  - simplify_eq. lia.
  - destruct (stage_step st ev) as [st1 |] eqn:Hstep; [| discriminate].
    apply stage_step_rank in Hstep. apply IH in H. lia.
Qed.

(** What a trace that led from [st] to a stage other than [Closed] holds:
    no sign-out, and as many successful sign-ins, queries and calls as the
    stages passed. *)
Lemma stage_run_before (tr : list Event) :
  forall st st',
    stage_run st tr = Some st' ->
    st' <> Closed ->
    closes tr = 0 /\
    opens tr + Nat.min 1 (rank st) = Nat.min 1 (rank st') /\
    count is_filter tr + Nat.min 1 (rank st - 1) = Nat.min 1 (rank st' - 1) /\
    count is_call tr + Nat.min 1 (rank st - 2) = Nat.min 1 (rank st' - 2).
Proof.
  unfold opens, closes.
  induction tr as [| ev tr IH]; intros st st' H Hopen; simpl in H.
  - simplify_eq. rewrite !count_nil. lia.
  - destruct (stage_step st ev) as [st1 |] eqn:Hstep; [| discriminate].
    assert (Hst1 : st1 <> Closed).
    { intros ->. apply stage_run_rank in H. destruct st'; simpl in H; try lia.
      congruence. }
    specialize (IH st1 st' H Hopen). rewrite !count_cons.
    destruct ev as [| | ? ? ? [] | | | | | |], st; simpl in Hstep; simplify_eq;
      simpl in *; try congruence; lia.
Qed.

(** What a trace that starts from [st] no longer holds. *)
Lemma stage_run_after (tr : list Event) :
  forall st st',
    stage_run st tr = Some st' ->
    (1 <= rank st -> opens tr = 0) /\
    (2 <= rank st -> count is_filter tr = 0) /\
    (3 <= rank st -> count is_call tr = 0).
Proof.
  unfold opens.
  induction tr as [| ev tr IH]; intros st st' H; simpl in H.
  - rewrite !count_nil. lia.
  - destruct (stage_step st ev) as [st1 |] eqn:Hstep; [| discriminate].
    specialize (IH st1 st' H). pose proof (stage_step_rank _ _ _ Hstep) as Hrank.
    rewrite !count_cons.
    destruct ev as [| | ? ? ? [] | | | | | |], st; simpl in Hstep; simplify_eq;
      simpl in *; lia.
Qed.

(** The order is a real constraint: a sign-out straight after the sign-in,
    a second session, a call without a query and traffic after the
    sign-out are all refused. *)
Example stage_run_refuses_disorder :
  stage_run Fresh [ESignIn "n" "t" "" true; ESignOut] = None /\
  stage_run Fresh [ESignIn "n" "t" "" true; EFilter "workbooks" "p" "r"; ESignOut;
                   ESignIn "n" "t" "" true] = None /\
  stage_run Fresh [ESignIn "n" "t" "" true; ECall "workbooks" "refresh" "id"] = None /\
  stage_run Fresh [ECall "workbooks" "refresh" "id"; EFilter "workbooks" "p" "r";
                   ESignIn "n" "t" "" true] = None /\
  stage_run Fresh [ESignIn "n" "t" "" true; EFilter "workbooks" "p" "r"; ESignOut;
                   EPoll "job"] = None.
Proof. repeat split. Qed.

(** Runs the stages over the trace of each path of an execution. *)
Ltac run_stages :=
  exec_cases; rewrite <- ?app_assoc;
  rewrite ?stage_run_wait by assumption;
  rewrite ?stage_run_wait_only by assumption;
  simpl.

(** X9.  In the trace of any execution, finished or not, a method call
    comes after exactly one successful sign-in and exactly one directory
    query, with no sign-out and no other call before it, and no further
    call, query or sign-in after it.  A directory query comes after exactly
    one successful sign-in, with no sign-out, query or call before it, and
    no further query or sign-in after it.  So nothing is retried. *)
Theorem query_and_call_order (w : World) (self : TableauApiOperator.t)
    (pre post : list Event) (ev : Event) :
  (execute w self).1 = pre ++ ev :: post ->
  (is_call ev = true ->
   opens pre = 1 /\ closes pre = 0 /\
   count is_filter pre = 1 /\ count is_call pre = 0 /\
   opens post = 0 /\ count is_filter post = 0 /\ count is_call post = 0) /\
  (is_filter ev = true ->
   opens pre = 1 /\ closes pre = 0 /\
   count is_filter pre = 0 /\ count is_call pre = 0 /\
   opens post = 0 /\ count is_filter post = 0).
Proof.
  intros Htrace.
  assert (Hrun : exists st, stage_run Fresh (execute w self).1 = Some st).
  { clear. run_stages; eauto. }
  destruct Hrun as [st Hrun]. rewrite Htrace, stage_run_app in Hrun.
  destruct (stage_run Fresh pre) as [s1 |] eqn:Hpre; [| discriminate].
  simpl in Hrun.
  destruct (stage_step s1 ev) as [s2 |] eqn:Hstep; [| discriminate].
  split; intros Hev; destruct ev; try discriminate Hev;
    destruct s1; simpl in Hstep; simplify_eq.
  - destruct (stage_run_before _ _ _ Hpre ltac:(discriminate)) as (? & ? & ? & ?).
    destruct (stage_run_after _ _ _ Hrun) as (? & ? & ?).
    simpl in *. repeat split; lia.
  - destruct (stage_run_before _ _ _ Hpre ltac:(discriminate)) as (? & ? & ? & ?).
    destruct (stage_run_after _ _ _ Hrun) as (? & ? & ?).
    simpl in *. repeat split; lia.
Qed.

(** X10.  The trace of every execution follows the order of [stage_step]
    from the start to some stage: the client is built and the sign-in is
    attempted only before any session; the query is made once, in the open
    session; the method is called once, after the query; polls come after
    the call; the sign-out comes once, after the query or the call, and
    nothing goes to the server after it or after a refused sign-in.  An
    execution that returned or raised stands at the start or at the end of
    the exchange; one that is still waiting stands after the call. *)
Theorem execute_follows_protocol (w : World) (self : TableauApiOperator.t) :
  exists st,
    stage_run Fresh (execute w self).1 = Some st /\
    match (execute w self).2 with
    | Blocked => st = Called
    | _ => st = Fresh \/ st = Closed
    end.
Proof.
  run_stages; eauto.
Qed.

(** X11.  The operator's [wait_for_job] is [wait_for_job_with] at the
    client's wait, and whatever the client's wait does: the wait is
    announced first; when the client's wait returns, the success line is
    logged and the wrapper returns; when it raises a [ServerResponseError],
    the error is logged at error level and the same error is raised; any
    other exception passes through with no further log line; and a wait
    that has not returned leaves the wrapper waiting. *)
Theorem wait_for_job_handles_each_outcome (w : World) (jobs_wait : string -> M unit)
    (self : TableauApiOperator.t) (hook : TableauApiHook.t) (job_id : string) :
  wait_for_job w self hook job_id =
    wait_for_job_with (jobs_wait_for_job w) self hook job_id /\
  (forall tr,
     jobs_wait job_id = (tr, Return tt) ->
     wait_for_job_with jobs_wait self hook job_id =
       (ELog INFO "Waiting for job..." [] ::
          tr ++ [ELog INFO "Job finished succesfully" []],
        Return tt)) /\
  (forall tr code summary,
     jobs_wait job_id = (tr, Raise (ServerResponseError code summary)) ->
     wait_for_job_with jobs_wait self hook job_id =
       (ELog INFO "Waiting for job..." [] ::
          tr ++ [ELog ERROR "Job failed! %s"
                   [LExn (ServerResponseError code summary)]],
        Raise (ServerResponseError code summary))) /\
  (forall tr e,
     jobs_wait job_id = (tr, Raise e) ->
     (forall code summary, e <> ServerResponseError code summary) ->
     wait_for_job_with jobs_wait self hook job_id =
       (ELog INFO "Waiting for job..." [] :: tr, Raise e)) /\
  (forall tr,
     jobs_wait job_id = (tr, Blocked) ->
     wait_for_job_with jobs_wait self hook job_id =
       (ELog INFO "Waiting for job..." [] :: tr, Blocked)).
Proof.
  split; [reflexivity |].
  unfold wait_for_job_with, logging_info, logging_error,
    try_except_ServerResponseError, bind, emit, ret, raise.
  repeat split.
  - intros tr ->. reflexivity.
  - intros tr code summary ->. simpl. reflexivity.
  - intros tr e -> Hne. simpl. destruct e; try reflexivity. now edestruct Hne.
  - intros tr ->. reflexivity.
Qed.

(** X12.  [get_resource_id] returns an id exactly when the directory query
    answered with at least one entry, and the id is then that of the first
    entry: a single match is returned as it is, an empty answer or a query
    error never yields an id. *)
Theorem get_resource_id_returns_first (w : World) (self : TableauApiOperator.t)
    (hook : TableauApiHook.t) (project name rid : string) :
  (get_resource_id w self hook project name).2 = Return rid <->
  exists first others,
    srv_filter w (resource self) project name = inr (first :: others) /\
    rid = item_id first.
Proof.
  exec_cases; split; intros H; try discriminate H.
  all: try (destruct H as (first & others & Hf & ->); now simplify_eq).
  simplify_eq. eauto.
Qed.

(** X13.  An operator built with the default [method] and
    [blocking_refresh] enters the job wait as soon as its refresh call
    returned a job: the call is followed by its log line and by the
    announcement of the wait. *)
Theorem default_operator_waits (w : World) (res name project : string)
    (site : option string) (conn_id : option string) (rid : string)
    (f : string -> Exn + JobItem) (job : JobItem) :
  In (ECall res "refresh" rid)
     (execute w (__init__ res None name project site None conn_id)).1 ->
  srv_method w res "refresh" = Some f ->
  f rid = inr job ->
  exists pre post,
    (execute w (__init__ res None name project site None conn_id)).1 =
      pre ++ [ECall res "refresh" rid;
              ELog INFO (newline +:+ "The refresh of %s: %s has been triggered.")
                [LStr res; LStr rid];
              ELog INFO "Waiting for job..." []] ++ post.
Proof.
  unfold __init__. exec_cases; simpl; intros Hin Hm Hf;
    try discriminate; try (absurd_in Hin; fail).
  all: absurd_in Hin; simplify_eq; try congruence.
  all: now eexists [_; _; _; _; _], _.
Qed.

Lemma hook_site_id_resolution_witness :
  exists hook,
    TableauApiHook.__init__
      (Faults.with_connection "marketing" Faults.conn_with_site Faults.base)
      (Some "") "marketing" =
      ([EGetConnection "marketing"; EServerNew "https://tableau.example" true],
       Return hook) /\
    TableauApiHook.site_id hook = "marketing".
Proof.
  destruct (hook_site_id_resolution
              (Faults.with_connection "marketing" Faults.conn_with_site Faults.base)
              (Some "") "marketing" Faults.conn_with_site)
    as (hook & Hinit & _ & _ & _ & Hsite).
  - reflexivity.
  - exists hook. split; [exact Hinit |]. rewrite Hsite; [reflexivity | now right].
Defined.

Lemma open_signs_in_with_stored_credentials_witness :
  (TableauApiHook.open Faults.base (Some "finance") "tableau_default").1 =
    [EGetConnection "tableau_default"; EServerNew "https://tableau.example" true;
     ESignIn "airflow" "s3cret" "finance" true].
Proof.
  refine (proj1 (open_signs_in_with_stored_credentials Faults.base (Some "finance")
                   "tableau_default" Sample.conn "airflow" "s3cret" _ _ _));
    reflexivity.
Defined.

Lemma failed_sign_in_skips_sign_out_witness :
  execute (Faults.sign_in_raises Faults.connection_reset Faults.base)
    (Sample.refresh_q1 true) =
    ([EGetConnection "tableau_default"; EServerNew "https://tableau.example" true;
      ESignIn "airflow" "s3cret" "" false],
     Raise Faults.connection_reset).
Proof.
  destruct (failed_sign_in_skips_sign_out
              (Faults.sign_in_raises Faults.connection_reset Faults.base)
              (Sample.refresh_q1 true) "airflow" "s3cret" "")
    as (e & c & Hc & He & Hrun & _).
  - vm_compute. tauto.
  - rewrite Hrun. vm_compute in Hc. vm_compute in He. now simplify_eq.
Defined.

Lemma lookup_error_propagates_unlogged_witness :
  exists pre,
    execute (Faults.filter_raises Sample.rejected Faults.base) (Sample.refresh_q1 true) =
      (pre ++ [EFilter "workbooks" "Sales" "Q1"; ESignOut], Raise Sample.rejected).
Proof.
  destruct (lookup_error_propagates_unlogged
              (Faults.filter_raises Sample.rejected Faults.base)
              (Sample.refresh_q1 true) Sample.rejected) as (pre & Hrun & _).
  - vm_compute. tauto.
  - reflexivity.
  - reflexivity.
  - now exists pre.
Defined.

Lemma missing_method_raises_attribute_error_witness :
  (execute Faults.base Sample.fresh_q1).2 = Raise (AttributeError "workbooks" "fresh").
Proof.
  destruct (missing_method_raises_attribute_error Faults.base Sample.fresh_q1 "wb-1")
    as (pre & Hrun & _).
  - vm_compute. tauto.
  - reflexivity.
  - reflexivity.
  - now rewrite Hrun.
Defined.

Lemma other_trigger_error_unlogged_witness :
  exists pre,
    execute (Faults.call_raises Faults.connection_reset Faults.base)
      (Sample.refresh_q1 true) =
      (pre ++ [ECall "workbooks" "refresh" "wb-1"; ESignOut],
       Raise Faults.connection_reset).
Proof.
  destruct (other_trigger_error_unlogged
              (Faults.call_raises Faults.connection_reset Faults.base)
              (Sample.refresh_q1 true) "wb-1" (fun _ => inl Faults.connection_reset)
              Faults.connection_reset) as (pre & Hrun & _).
  - vm_compute. tauto.
  - reflexivity.
  - reflexivity.
  - discriminate.
  - reflexivity.
  - now exists pre.
Defined.

Lemma sign_out_failure_replaces_outcome_witness :
  (execute (Faults.sign_out_raises Faults.connection_reset Faults.base)
     (Sample.refresh_q1 false)).2 = Raise Faults.connection_reset.
Proof.
  apply (sign_out_failure_replaces_outcome
           (Faults.sign_out_raises Faults.connection_reset Faults.base)
           (Sample.refresh_q1 false) Faults.connection_reset).
  - vm_compute. tauto.
  - reflexivity.
Defined.

Lemma returned_job_id_comes_from_trigger_witness :
  exists rid f job,
    In (ECall "workbooks" "refresh" rid)
       (execute Faults.base (Sample.refresh_q1 true)).1 /\
    srv_method Faults.base "workbooks" "refresh" = Some f /\
    f rid = inr job /\ "job-9" = job_item_id job.
Proof.
  destruct (returned_job_id_comes_from_trigger Faults.base (Sample.refresh_q1 true) "job-9")
    as (rid & f & job & Hin & Hm & Hf & Hv & _).
  - reflexivity.
  - now exists rid, f, job.
Defined.

Lemma query_and_call_order_witness :
  opens [EGetConnection "tableau_default"; EServerNew "https://tableau.example" true;
         ESignIn "airflow" "s3cret" "" true; EFilter "workbooks" "Sales" "Q1";
         ELog INFO "Here is the resource id for the %s specified: %s"
           [LStr "workbooks"; LStr "wb-1"]] = 1 /\
  count is_call [ELog INFO (newline +:+ "The refresh of %s: %s has been triggered.")
                   [LStr "workbooks"; LStr "wb-1"];
                 ESignOut] = 0.
Proof.
  destruct (query_and_call_order Faults.base (Sample.refresh_q1 false)
              [EGetConnection "tableau_default"; EServerNew "https://tableau.example" true;
               ESignIn "airflow" "s3cret" "" true; EFilter "workbooks" "Sales" "Q1";
               ELog INFO "Here is the resource id for the %s specified: %s"
                 [LStr "workbooks"; LStr "wb-1"]]
              [ELog INFO (newline +:+ "The refresh of %s: %s has been triggered.")
                 [LStr "workbooks"; LStr "wb-1"];
               ESignOut]
              (ECall "workbooks" "refresh" "wb-1")) as [Hcall _].
  - reflexivity.
  - destruct Hcall as (Ho & _ & _ & _ & _ & _ & Hc); [reflexivity |].
    split; [exact Ho | exact Hc].
Defined.

Lemma wait_for_job_handles_each_outcome_witness :
  wait_for_job_with Faults.wait_rejected (Sample.refresh_q1 true)
    {| TableauApiHook.tableau_conn_id := "tableau_default";
       TableauApiHook.conn := Sample.conn;
       TableauApiHook.site_id := "";
       TableauApiHook.server := "https://tableau.example" |} "job-9" =
    ([ELog INFO "Waiting for job..." []; EPoll "job-9";
      ELog ERROR "Job failed! %s" [LExn (ServerResponseError "403004" "Forbidden")]],
     Raise (ServerResponseError "403004" "Forbidden")).
Proof.
  destruct (wait_for_job_handles_each_outcome Faults.base Faults.wait_rejected
              (Sample.refresh_q1 true)
              {| TableauApiHook.tableau_conn_id := "tableau_default";
                 TableauApiHook.conn := Sample.conn;
                 TableauApiHook.site_id := "";
                 TableauApiHook.server := "https://tableau.example" |} "job-9")
    as (_ & _ & Hrejected & _).
  apply (Hrejected [EPoll "job-9"] "403004" "Forbidden"). reflexivity.
Defined.

Lemma get_resource_id_returns_first_witness :
  (get_resource_id Faults.base (Sample.refresh_q1 true)
     {| TableauApiHook.tableau_conn_id := "tableau_default";
        TableauApiHook.conn := Sample.conn;
        TableauApiHook.site_id := "";
        TableauApiHook.server := "https://tableau.example" |} "Sales" "Q1").2 =
    Return "wb-1".
Proof.
  apply get_resource_id_returns_first. exists Sample.q1, []. split; reflexivity.
Defined.

Lemma default_operator_waits_witness :
  exists pre post,
    (execute Faults.base
       (__init__ "datasources" None "Q1" "Sales" None None None)).1 =
      pre ++ [ECall "datasources" "refresh" "wb-1";
              ELog INFO (newline +:+ "The refresh of %s: %s has been triggered.")
                [LStr "datasources"; LStr "wb-1"];
              ELog INFO "Waiting for job..." []] ++ post.
Proof.
  apply (default_operator_waits Faults.base "datasources" "Q1" "Sales" None None
           "wb-1" (fun _ => inr {| job_item_id := "job-9" |}) {| job_item_id := "job-9" |}).
  - vm_compute. tauto.
  - reflexivity.
  - reflexivity.
Defined.
